(** * CDenStream: the C-DBSCAN module [cdenstream/cdbscan.py]

    A shallow embedding of [compute_density_reachable_points] and [cdbscan]
    and the properties of them that the specification states.

    Conventions of the embedding.
    - A Python call either returns a value, raises an exception or does not
      come back; [outcome] has one constructor for each.  [Timeout] only
      arises from the fuel of [while_loop].
    - A numpy dataset of shape (N, d) is a [list Point] of N rows.
    - [sklearn.metrics.pairwise.pairwise_distances] is an external
      primitive.  It is a parameter [pairwise_distances] of the embedding:
      from a dataset it returns a distance matrix or raises.
    - Distances and radii are rationals; floating-point rounding is not
      modelled.
    - A Python [set] of indices is a [gset nat].  The order in which Python
      iterates over a set is a parameter [set_iter].
    - [run_test] and the unit tests of [tests/test_cdbscan.py] are embedded
      too; [sklearn.metrics.adjusted_rand_score] is a parameter of the
      tests.  *)

From Stdlib Require Import ZArith QArith Lia.
From stdpp Require Import base strings list gmap fin_sets.

Local Open Scope nat_scope.

(** ** Outcomes of Python calls *)

Inductive outcome (A : Type) : Type :=
| Return (a : A)
| Raise (exc : string)
| Timeout.
Arguments Return {A} a.
Arguments Raise {A} exc.
Arguments Timeout {A}.

#[global] Instance outcome_ret : MRet outcome := @Return.
#[global] Instance outcome_bind : MBind outcome := λ A B f m,
  match m with
  | Return a => f a
  | Raise exc => Raise exc
  | Timeout => Timeout
  end.

(** ** numpy arrays *)

(** A square matrix of distances, read at [row, column]. *)
Definition matrix : Type := nat → nat → Q.

(** numpy accepts an index [i] on an axis of length [n] when [-n <= i < n]
    and counts a negative one from the end. *)
Definition normalize_index (n : nat) (i : Z) : option nat :=
  if bool_decide (0 ≤ i < Z.of_nat n)%Z then Some (Z.to_nat i)
  else if bool_decide (- Z.of_nat n ≤ i < 0)%Z then Some (Z.to_nat (i + Z.of_nat n))
  else None.

(** [m[i, j]] on an (n, n) array. *)
Definition getitem (n : nat) (m : matrix) (i j : Z) : outcome Q :=
  match normalize_index n i, normalize_index n j with
  | Some row, Some col => Return (m row col)
  | _, _ => Raise "IndexError"
  end.

(** [tuple(i for i in l if cond(i))]: the condition is evaluated on the
    elements in order and the first exception ends the generator. *)
Fixpoint generator_filter (cond : nat → outcome bool) (l : list nat)
  : outcome (list nat) :=
  match l with
  | [] => Return []
  | i :: l' =>
      b ← cond i;
      rest ← generator_filter cond l';
      Return (if b : bool then i :: rest else rest)
  end.

(** ** [compute_density_reachable_points] *)

(** The inner function [compute_neighbors] (lines 15-17), with the variables
    it captures as arguments.  [element_index] is not used in its body:
    the row read is [point_index]. *)
Definition compute_neighbors (element_count : nat) (distances : matrix)
    (point_index : Z) (maximum_distance : Q) (element_index : Z)
  : outcome (list nat) :=
  generator_filter
    (λ i, d ← getitem element_count distances point_index (Z.of_nat i);
          Return (Qle_bool d maximum_distance))
    (seq 0 element_count).

Section FixpointLoop.
(** The loop of lines 26-34, for any neighbourhood function. *)
Variable set_iter : gset nat → list nat.
Variable neighbors : nat → outcome (list nat).

(** [(points_already_visited, density_reachable)] *)
Definition loop_state : Type := gset nat * gset nat.

(** One iteration (lines 28-34); the boolean is [new_points_to_explore]. *)
Definition loop_body (st : loop_state) : outcome (loop_state * bool) :=
  let '(points_already_visited, density_reachable) := st in
  let old_reachable_point_count := size density_reachable in
  reachable_neighborhoods ←
    mapM neighbors
      (filter (λ i, i ∉ points_already_visited) (set_iter density_reachable));
  let points_already_visited := points_already_visited ∪ density_reachable in
  let density_reachable :=
    foldl (λ acc neighborhood, acc ∪ list_to_set neighborhood)
          density_reachable reachable_neighborhoods in
  Return (points_already_visited, density_reachable,
          bool_decide (old_reachable_point_count < size density_reachable)).

(** [while new_points_to_explore: ...], entered with the flag [True]:
    the body runs, then the flag it computed is tested.  One unit of fuel
    is one iteration. *)
Fixpoint while_loop (fuel : nat) (st : loop_state) : outcome (gset nat) :=
  match fuel with
  | O => Timeout
  | S fuel' =>
      r ← loop_body st;
      let '(st', new_points_to_explore) := r in
      if new_points_to_explore : bool then while_loop fuel' st'
      else Return (snd st')
  end.
End FixpointLoop.

Section DensityReachable.
Context {Point : Type}.
Variable pairwise_distances : list Point → outcome matrix.
Variable set_iter : gset nat → list nat.

Definition compute_density_reachable_points (fuel : nat)
    (dataset : list Point) (point_index : Z) (maximum_distance : Q)
  : outcome (gset nat) :=
  let element_count := length dataset in
  distances ← pairwise_distances dataset;
  let compute_neighbors :=
    compute_neighbors element_count distances point_index maximum_distance in
  let points_already_visited : gset nat := ∅ in
  initial ← compute_neighbors point_index;
  let density_reachable : gset nat := list_to_set initial in
  while_loop set_iter (λ i, compute_neighbors (Z.of_nat i)) fuel
             (points_already_visited, density_reachable).
End DensityReachable.

(** ** [cdbscan] *)

(** What [cdbscan] can hand back: Python's [None] or a sequence of labels. *)
Inductive pyvalue : Type :=
| PyNone
| PyLabels (labels : list Z).

(** Defaults of the keyword arguments. *)
Definition default_epsilon : Q := 1 # 100.
Definition default_minpts : Z := 5.

(** [mustlink] and [cannotlink] default to [None]; otherwise they are sets of
    index pairs.  The body is the docstring followed by [return None]. *)
Definition cdbscan {Point : Type} (dataset : list Point) (epsilon : Q)
    (minpts : Z) (mustlink cannotlink : option (gset (Z * Z)))
  : outcome pyvalue :=
  Return PyNone.

(** ** Notions of the specification *)

(** Neighborhood(q, r): the indices whose distance to [q] is at most [r]. *)
Definition Neighborhood (distances : matrix) (element_count : nat)
    (q : nat) (r : Q) : gset nat :=
  list_to_set
    (List.filter (λ i, Qle_bool (distances q i) r) (seq 0 element_count)).

(** DensityReachableSet(p, r), following the specification's words: the
    least set that holds [p] and [Neighborhood(p, r)] and, with each [q],
    all of [Neighborhood(q, r)]. *)
Inductive DensityReachableSet_spec (distances : matrix) (element_count : nat)
    (p : nat) (r : Q) : nat → Prop :=
| dr_seed : DensityReachableSet_spec distances element_count p r p
| dr_union q i :
    DensityReachableSet_spec distances element_count p r q →
    i ∈ Neighborhood distances element_count q r →
    DensityReachableSet_spec distances element_count p r i.

(** A set is a fixpoint of the neighbourhood-union operator when the
    neighbourhood of each of its members is inside it. *)
Definition neighborhood_closed (distances : matrix) (element_count : nat)
    (r : Q) (s : gset nat) : Prop :=
  ∀ q, q ∈ s → Neighborhood distances element_count q r ⊆ s.

(** label(i): what a caller gets by reading entry [i] of the value that
    [cdbscan] returned.  Subscripting [None] raises [TypeError]. *)
Definition label (v : pyvalue) (i : nat) : outcome Z :=
  match v with
  | PyNone => Raise "TypeError"
  | PyLabels labels =>
      match labels !! i with
      | Some l => Return l
      | None => Raise "IndexError"
      end
  end.

(** ** A concrete distance primitive

    Datasets of shape (N, 1) with integer coordinates: the Euclidean
    distance of two rows is the absolute difference, with no rounding.
    The primitive rejects an empty array. *)
Definition pairwise_distances_line (dataset : list Z) : outcome matrix :=
  match dataset with
  | [] => Raise "ValueError"
  | _ => Return (λ i j, inject_Z (Z.abs (nth i dataset 0%Z - nth j dataset 0%Z)))
  end.

Definition three_in_a_row : list Z := [0; 1; 2]%Z.


(** ** Inputs of the repository's tests for [cdbscan] *)

(** [test_easy_clusters_no_constraints]: the test expects two clusters. *)
Definition easy_points : list (list Z) :=
  [[1; 1]; [52; 3]; [1; 2]; [2; 3]; [50; 4]; [51; 2]]%Z.

(** [test_mustlink_merging]: the test expects one cluster. *)
Definition merging_points : list (list Z) :=
  [[1; 1]; [52; 3]; [1; 2]; [50; 4]; [2; 3]; [51; 2]]%Z.
Definition merging_mustlink : gset (Z * Z) := {[ (0, 1)%Z ]}.

(** ** [run_test] and the module constants *)

Definition NEIGHBORHOOD_MIN_POINTS : Z := 50.
Definition NEIGHBORHOOD_RADIUS : Q := 2.

(** The array [X] of [run_test] (lines 79-86). *)
Definition run_test_X : list (list Z) :=
  [[0; 0]; [0; 1]; [1; 0]; [10; 0]; [11; 1]; [9; 0]]%Z.

(** [run_test] (lines 78-91).  The function returns nothing; the result of
    the embedding is what it prints, one entry for each [print]. *)
Definition run_test (pairwise_distances : list (list Z) → outcome matrix)
    (set_iter : gset nat → list nat) (fuel : nat)
  : outcome (list (gset nat)) :=
  let X := run_test_X in
  dr ← compute_density_reachable_points pairwise_distances set_iter fuel
         X 0 NEIGHBORHOOD_RADIUS;
  Return [dr].

(** The square of the Euclidean distance of two rows of integers. *)
Fixpoint squared_distance (x y : list Z) : Z :=
  match x, y with
  | a :: x', b :: y' => ((a - b) * (a - b) + squared_distance x' y')%Z
  | _, _ => 0%Z
  end.

(** ** The unit tests [tests/test_cdbscan.py]

    [sklearn.metrics.adjusted_rand_score] is external: a parameter that
    scores the expected labels against what [cdbscan] returned, or raises. *)

Section Tests.
Variable adjusted_rand_score : list Z → pyvalue → outcome Q.

(** [assert adjusted_rand_score(expected, clusters) == 1] *)
Definition assert_score_is_one (expected : list Z) (clusters : pyvalue)
  : outcome unit :=
  score ← adjusted_rand_score expected clusters;
  if Qeq_bool score 1 then Return () else Raise "AssertionError".

Definition test_easy_clusters_no_constraints : outcome unit :=
  let points := easy_points in
  let epsilon := 5%Q in
  let minpts := 2%Z in
  clusters ← cdbscan points epsilon minpts None None;
  let expected := [0; 1; 0; 0; 1; 1]%Z in
  assert_score_is_one expected clusters.

Definition test_fully_constrained : outcome unit :=
  let points := easy_points in
  let epsilon := 5%Q in
  let minpts := 2%Z in
  let mustlink : gset (Z * Z) := {[ (0, 1); (2, 3); (4, 5) ]}%Z in
  let cannotlink : gset (Z * Z) := {[ (0, 2); (1, 4); (3, 5) ]}%Z in
  clusters ← cdbscan points epsilon minpts (Some mustlink) (Some cannotlink);
  let expected := [0; 0; 1; 1; 2; 2]%Z in
  assert_score_is_one expected clusters.

Definition test_fully_must_constrained : outcome unit :=
  let points := merging_points in
  let epsilon := 5%Q in
  let minpts := 2%Z in
  let mustlink : gset (Z * Z) := {[ (0, 1); (2, 3); (3, 4) ]}%Z in
  clusters ← cdbscan points epsilon minpts (Some mustlink) None;
  let expected := [0; 0; 0; 0; 0; 0]%Z in
  assert_score_is_one expected clusters.

Definition test_fully_cannot_constrained : outcome unit :=
  let points := merging_points in
  let epsilon := 5%Q in
  let minpts := 2%Z in
  let cannotlink : gset (Z * Z) := {[ (0, 2); (2, 4); (1, 5); (3, 5) ]}%Z in
  clusters ← cdbscan points epsilon minpts None (Some cannotlink);
  let expected := [0; 1; 2; 3; 4; 5]%Z in
  assert_score_is_one expected clusters.

Definition test_mustlink_merging : outcome unit :=
  let points := merging_points in
  let epsilon := 5%Q in
  let minpts := 2%Z in
  let mustlink := merging_mustlink in
  clusters ← cdbscan points epsilon minpts (Some mustlink) None;
  let expected := [0; 0; 0; 0; 0; 0]%Z in
  assert_score_is_one expected clusters.

Definition test_singleton_outlier : outcome unit :=
  let points := (merging_points ++ [[100; 200]])%Z in
  let epsilon := 5%Q in
  let minpts := 2%Z in
  let mustlink := merging_mustlink in
  clusters ← cdbscan points epsilon minpts (Some mustlink) None;
  let expected := [0; 0; 0; 0; 0; 0; -1]%Z in
  assert_score_is_one expected clusters.

Definition test_outlier_cluster : outcome unit :=
  let points := (merging_points ++ [[100; 200]; [100; 201]])%Z in
  let epsilon := 5%Q in
  let minpts := 3%Z in
  let mustlink := merging_mustlink in
  clusters ← cdbscan points epsilon minpts (Some mustlink) None;
  let expected := [0; 0; 0; 0; 0; 0; -1; -1]%Z in
  assert_score_is_one expected clusters.

(** [expected] is [np.zeros(points.shape[0])]. *)
Definition test_connection_through_alpha : outcome unit :=
  let points :=
    [[1; 1]; [2; 2]; [2; 1]; [4; 5]; [5; 4]; [5; 5];
     [9; 1]; [8; 0]; [13; 2]; [3; 3]; [7; 3]]%Z in
  let epsilon := 4%Q in
  let minpts := 2%Z in
  let mustlink : gset (Z * Z) := {[ (7, 8) ]}%Z in
  clusters ← cdbscan points epsilon minpts (Some mustlink) None;
  let expected := replicate (length points) 0%Z in
  assert_score_is_one expected clusters.

(** This test only calls [cdbscan]: it asserts nothing. *)
Definition test_merge_mustlink_when_cannotlink : outcome unit :=
  let points := [[0; 0]; [0; 1]; [1; 0]; [10; 10]; [11; 10]; [10; 11]]%Z in
  let epsilon := 1%Q in
  let minpts := 3%Z in
  let must_link : gset (Z * Z) := {[ (0, 3); (1, 4) ]}%Z in
  let cannot_link : gset (Z * Z) := {[ (2, 5) ]}%Z in
  clusters ← cdbscan points epsilon minpts (Some must_link) (Some cannot_link);
  Return ().

(** The eight tests that assert a score. *)
Definition asserting_tests : list (outcome unit) :=
  [ test_easy_clusters_no_constraints; test_fully_constrained;
    test_fully_must_constrained; test_fully_cannot_constrained;
    test_mustlink_merging; test_singleton_outlier; test_outlier_cluster;
    test_connection_through_alpha ].
End Tests.

(** A scorer for the witnesses: it refuses [None] and otherwise says
    whether the labels are the expected ones. *)
Definition strict_score (expected : list Z) (clusters : pyvalue) : outcome Q :=
  match clusters with
  | PyNone => Raise "ValueError"
  | PyLabels labels => Return (if bool_decide (labels = expected) then 1%Q else 0%Q)
  end.

(** Distance primitives for the witnesses: the sum of the coordinate
    differences of two rows of a dataset, and the constant zero matrix. *)
Definition pairwise_distances_grid (dataset : list (list Z)) : outcome matrix :=
  Return (λ i j,
    inject_Z (Z.abs (nth 0 (nth i dataset []) 0 - nth 0 (nth j dataset []) 0)
              + Z.abs (nth 1 (nth i dataset []) 0 - nth 1 (nth j dataset []) 0))%Z).


(** * Properties *)

(** ** The outcome monad *)

Lemma bind_Return {A B} (f : A → outcome B) (a : A) : Return a ≫= f = f a.
Proof. reflexivity. Qed.

Lemma bind_inv_Return {A B} (f : A → outcome B) (m : outcome A) (b : B) :
  m ≫= f = Return b → ∃ a, m = Return a ∧ f a = Return b.
Proof. destruct m as [a| |]; simpl; intros H; [eauto | discriminate..]. Qed.

Lemma bind_inv_Timeout {A B} (f : A → outcome B) (m : outcome A) :
  m ≫= f = Timeout → m = Timeout ∨ ∃ a, m = Return a ∧ f a = Timeout.
Proof. destruct m as [a| |]; simpl; intros H; [eauto | discriminate | auto]. Qed.

(** ** Indexing *)

Lemma normalize_index_valid (n : nat) (i : Z) :
  (0 ≤ i < Z.of_nat n)%Z → normalize_index n i = Some (Z.to_nat i).
Proof. intros H. unfold normalize_index. by rewrite bool_decide_eq_true_2. Qed.

Lemma normalize_index_of_nat (n i : nat) :
  i < n → normalize_index n (Z.of_nat i) = Some i.
Proof.
  intros H. rewrite normalize_index_valid by lia. by rewrite Nat2Z.id.
Qed.

Lemma getitem_no_timeout n m i j : getitem n m i j ≠ Timeout.
Proof.
  unfold getitem.
  destruct (normalize_index n i), (normalize_index n j); discriminate.
Qed.

(** ** The generator of [compute_neighbors] *)

Lemma generator_filter_pure (cond : nat → outcome bool) (f : nat → bool) l :
  (∀ i, i ∈ l → cond i = Return (f i)) →
  generator_filter cond l = Return (List.filter f l).
Proof.
  induction l as [|i l IH]; intros Hc; [done|].
  simpl. rewrite (Hc i) by left. rewrite bind_Return.
  rewrite IH by (intros j Hj; apply Hc; by right).
  rewrite bind_Return. by destruct (f i).
Qed.

Lemma generator_filter_sub (cond : nat → outcome bool) l l' :
  generator_filter cond l = Return l' → ∀ i, i ∈ l' → i ∈ l.
Proof.
  revert l'. induction l as [|j l IH]; intros l' H i Hi; simpl in H.
  - injection H as <-. done.
  - apply bind_inv_Return in H as (b & _ & H).
    apply bind_inv_Return in H as (rest & Hrest & H).
    injection H as <-. destruct b.
    + apply elem_of_cons in Hi as [->|Hi]; [left | right; eauto].
    + right; eauto.
Qed.

Lemma generator_filter_no_timeout (cond : nat → outcome bool) l :
  (∀ i, cond i ≠ Timeout) → generator_filter cond l ≠ Timeout.
Proof.
  intros Hc. induction l as [|j l IH]; simpl; [discriminate|].
  intros H. apply bind_inv_Timeout in H as [H | (b & _ & H)].
  - by apply (Hc j).
  - apply bind_inv_Timeout in H as [H | (rest & _ & H)]; [done | discriminate].
Qed.

Lemma compute_neighbors_row n distances p r e row :
  normalize_index n p = Some row →
  compute_neighbors n distances p r e
  = Return (List.filter (λ i, Qle_bool (distances row i) r) (seq 0 n)).
Proof.
  intros Hp. unfold compute_neighbors. apply generator_filter_pure.
  intros i Hi. apply elem_of_seq in Hi. unfold getitem.
  rewrite Hp, normalize_index_of_nat by lia. reflexivity.
Qed.

Lemma compute_neighbors_in_range n distances p r e l :
  compute_neighbors n distances p r e = Return l → ∀ i, i ∈ l → i < n.
Proof.
  intros H i Hi. apply (generator_filter_sub _ _ _ H) in Hi.
  apply elem_of_seq in Hi. lia.
Qed.

Lemma compute_neighbors_no_timeout n distances p r e :
  compute_neighbors n distances p r e ≠ Timeout.
Proof.
  apply generator_filter_no_timeout. intros i H.
  apply bind_inv_Timeout in H as [H | (d & _ & H)]; [|discriminate].
  by apply getitem_no_timeout in H.
Qed.

Lemma elem_of_Neighborhood distances n q r i :
  i ∈ Neighborhood distances n q r ↔ i < n ∧ (distances q i <= r)%Q.
Proof.
  unfold Neighborhood. rewrite elem_of_list_to_set, list_elem_of_In, filter_In.
  rewrite <- list_elem_of_In, elem_of_seq, Qle_bool_iff. intuition lia.
Qed.

(** ** The fixpoint loop, for any neighbourhood function *)

Lemma size_in_range (n : nat) (s : gset nat) :
  (∀ i, i ∈ s → i < n) → size s ≤ n.
Proof.
  intros Hs.
  assert (s ⊆ list_to_set (seq 0 n)) as Hsub.
  { intros i Hi. apply elem_of_list_to_set, elem_of_seq. apply Hs in Hi. lia. }
  apply subseteq_size in Hsub.
  rewrite size_list_to_set, length_seq in Hsub by apply NoDup_seq. done.
Qed.

Section FixpointLoopFacts.
Variable set_iter : gset nat → list nat.
Variable neighbors : nat → outcome (list nat).

Abbreviation union_all :=
  (foldl (λ (acc : gset nat) (neighborhood : list nat),
            acc ∪ list_to_set neighborhood)).

Lemma union_all_grows (nbs : list (list nat)) (s : gset nat) :
  s ⊆ union_all s nbs.
Proof.
  revert s. induction nbs as [|nb nbs IH]; intros s; simpl; [done|].
  etrans; [|apply IH]. set_solver.
Qed.

Lemma union_all_elem (nbs : list (list nat)) (s : gset nat) i :
  i ∈ union_all s nbs → i ∈ s ∨ ∃ nb, nb ∈ nbs ∧ i ∈ nb.
Proof.
  revert s. induction nbs as [|nb nbs IH]; intros s; simpl; [auto|].
  intros [Hi | (nb' & ? & ?)]%IH.
  - apply elem_of_union in Hi as [Hi|Hi]; [auto|].
    right. exists nb. split; [left | by apply elem_of_list_to_set in Hi].
  - right. exists nb'. split; [by right | done].
Qed.

Lemma mapM_Return_elem (l : list nat) (nbs : list (list nat)) nb :
  mapM neighbors l = Return nbs → nb ∈ nbs →
  ∃ q, q ∈ l ∧ neighbors q = Return nb.
Proof.
  revert nbs. induction l as [|q l IH]; intros nbs H Hnb; simpl in H.
  - injection H as <-. by apply elem_of_nil in Hnb.
  - apply bind_inv_Return in H as (y & Hy & H).
    apply bind_inv_Return in H as (k & Hk & H).
    injection H as <-.
    apply elem_of_cons in Hnb as [->|Hnb].
    + exists q. split; [left | done].
    + destruct (IH _ Hk Hnb) as (q' & ? & ?). exists q'. split; [by right | done].
Qed.

Lemma mapM_no_timeout (l : list nat) :
  (∀ q, neighbors q ≠ Timeout) → mapM neighbors l ≠ Timeout.
Proof.
  intros Hn. induction l as [|q l IH]; simpl; [discriminate|].
  intros H. apply bind_inv_Timeout in H as [H | (y & _ & H)].
  - by apply (Hn q).
  - apply bind_inv_Timeout in H as [H | (k & _ & H)]; [done | discriminate].
Qed.

(** What one iteration does to the state. *)
Lemma loop_body_inv visited dr visited' dr' again :
  loop_body set_iter neighbors (visited, dr) = Return (visited', dr', again) →
  visited' = visited ∪ dr ∧ dr ⊆ dr' ∧
  again = bool_decide (size dr < size dr') ∧
  ∀ i, i ∈ dr' → i ∈ dr ∨ ∃ q nb, neighbors q = Return nb ∧ i ∈ nb.
Proof.
  unfold loop_body. intros H.
  apply bind_inv_Return in H as (nbs & Hnbs & H).
  injection H as <- <- <-.
  split_and!; [done | apply union_all_grows | done |].
  intros i [Hi | (nb & Hnb & Hi)]%union_all_elem; [auto|].
  destruct (mapM_Return_elem _ _ _ Hnbs Hnb) as (q & _ & Hq). eauto.
Qed.

Lemma loop_body_no_timeout st :
  (∀ q, neighbors q ≠ Timeout) → loop_body set_iter neighbors st ≠ Timeout.
Proof.
  intros Hn. destruct st as [visited dr]. unfold loop_body. intros H.
  apply bind_inv_Timeout in H as [H | (nbs & _ & H)]; [|discriminate].
  by apply mapM_no_timeout in H.
Qed.

(** The flag is false: the loop is left with the set just computed. *)
Lemma while_loop_ends fuel visited dr visited' dr' :
  loop_body set_iter neighbors (visited, dr) = Return (visited', dr', false) →
  while_loop set_iter neighbors (S fuel) (visited, dr) = Return dr'.
Proof. intros H. cbn [while_loop]. rewrite H. reflexivity. Qed.

Section Bounded.
Variable element_count : nat.
Hypothesis neighbors_in_range :
  ∀ q nb, neighbors q = Return nb → ∀ i, i ∈ nb → i < element_count.
Hypothesis neighbors_no_timeout : ∀ q, neighbors q ≠ Timeout.

Lemma loop_body_in_range visited dr visited' dr' again :
  (∀ i, i ∈ dr → i < element_count) →
  loop_body set_iter neighbors (visited, dr) = Return (visited', dr', again) →
  ∀ i, i ∈ dr' → i < element_count.
Proof.
  intros Hdr H i Hi.
  apply loop_body_inv in H as (_ & _ & _ & H).
  destruct (H i Hi) as [?|(q & nb & Hq & ?)]; [auto|].
  eapply neighbors_in_range; eauto.
Qed.

(** The cardinality of [density_reachable] is a variant of the loop. *)
Lemma while_loop_no_timeout fuel visited dr :
  (∀ i, i ∈ dr → i < element_count) →
  element_count - size dr < fuel →
  while_loop set_iter neighbors fuel (visited, dr) ≠ Timeout.
Proof.
  revert visited dr.
  induction fuel as [|fuel IH]; intros visited dr Hdr Hfuel; [lia|].
  cbn [while_loop].
  destruct (loop_body set_iter neighbors (visited, dr))
    as [[[visited' dr'] again]| |] eqn:Hbody; simpl.
  - destruct again; [|discriminate].
    pose proof (loop_body_in_range _ _ _ _ _ Hdr Hbody) as Hdr'.
    apply loop_body_inv in Hbody as (_ & _ & Hagain & _).
    symmetry in Hagain. apply bool_decide_eq_true_1 in Hagain.
    apply IH; [done|].
    pose proof (size_in_range _ _ Hdr'). lia.
  - discriminate.
  - by apply loop_body_no_timeout in Hbody.
Qed.
End Bounded.

(** A neighbourhood function that returns the same tuple [nb] for every
    point adds nothing to a set that holds [nb] already. *)
Section Constant.
Variable nb : list nat.
Hypothesis neighbors_constant : ∀ q, neighbors q = Return nb.

Lemma mapM_constant (l : list nat) :
  mapM neighbors l = Return (replicate (length l) nb).
Proof.
  induction l as [|q l IH]; [done|].
  cbn [mapM]. rewrite neighbors_constant, bind_Return, IH. reflexivity.
Qed.

Lemma loop_body_constant visited (dr : gset nat) :
  list_to_set nb ⊆ dr →
  loop_body set_iter neighbors (visited, dr)
  = Return (visited ∪ dr, dr, false).
Proof.
  intros Hnb.
  destruct (loop_body set_iter neighbors (visited, dr))
    as [[[visited' dr'] again]| |] eqn:Hbody.
  - apply loop_body_inv in Hbody as (-> & Hsub & -> & Hin).
    assert (dr' = dr) as ->.
    { apply set_eq. intros i. split; [|by apply Hsub].
      intros [?|(q & nb' & Hq & Hi)]%Hin; [done|].
      rewrite neighbors_constant in Hq. injection Hq as <-.
      apply Hnb. by apply elem_of_list_to_set. }
    by rewrite bool_decide_eq_false_2 by lia.
  - unfold loop_body in Hbody. by rewrite mapM_constant in Hbody.
  - apply loop_body_no_timeout in Hbody; [done|].
    intros q. by rewrite neighbors_constant.
Qed.

Lemma while_loop_constant fuel visited (dr : gset nat) :
  list_to_set nb ⊆ dr →
  while_loop set_iter neighbors (S fuel) (visited, dr) = Return dr.
Proof.
  intros Hnb. eapply while_loop_ends. by apply loop_body_constant.
Qed.
End Constant.
End FixpointLoopFacts.

(** ** [compute_density_reachable_points] *)

Section DensityReachableFacts.
Context {Point : Type}.
Variable pairwise_distances : list Point → outcome matrix.

(** With at least one unit of fuel the function is the neighbourhood read
    on line 24, turned into a set: the loop runs once and adds nothing. *)
Lemma compute_density_reachable_points_unfold set_iter fuel dataset p r :
  compute_density_reachable_points pairwise_distances set_iter (S fuel)
    dataset p r
  = (distances ← pairwise_distances dataset;
     initial ← compute_neighbors (length dataset) distances p r p;
     Return (list_to_set initial)).
Proof.
  unfold compute_density_reachable_points.
  destruct (pairwise_distances dataset) as [distances| |]; [|done..].
  rewrite !bind_Return.
  destruct (compute_neighbors (length dataset) distances p r p)
    as [nb| |] eqn:Hnb; [|done..].
  rewrite !bind_Return.
  apply while_loop_constant with (nb := nb); [|done].
  intros q. exact Hnb.
Qed.

Lemma compute_density_reachable_points_valid set_iter fuel dataset p r
    distances :
  pairwise_distances dataset = Return distances →
  (0 ≤ p < Z.of_nat (length dataset))%Z →
  compute_density_reachable_points pairwise_distances set_iter (S fuel)
    dataset p r
  = Return (Neighborhood distances (length dataset) (Z.to_nat p) r).
Proof.
  intros Hd Hp. rewrite compute_density_reachable_points_unfold, Hd.
  rewrite bind_Return.
  rewrite (compute_neighbors_row _ _ _ _ _ (Z.to_nat p))
    by by apply normalize_index_valid.
  reflexivity.
Qed.
End DensityReachableFacts.

(** * The claims *)

(** C1.  The claim says that the function returns the closure of the seed
    under neighbourhood union.  On the three points 0, 1, 2 of a line, from
    point 0 with radius 1, the code returns {0, 1}: point 2 is in the
    neighbourhood of point 1 and in the closure, and is not returned.  The
    set returned is not a fixpoint of the neighbourhood-union operator.
    The same loop, run with the neighbourhood of each point it explores,
    returns {0, 1, 2}. *)
Theorem density_reachable_misses_closure :
  ∃ distances s,
    pairwise_distances_line three_in_a_row = Return distances ∧
    compute_density_reachable_points pairwise_distances_line elements 4
      three_in_a_row 0 1 = Return s ∧
    s = {[0; 1]} ∧
    DensityReachableSet_spec distances 3 0 1 2 ∧
    (2 ∉ s) ∧
    (¬ neighborhood_closed distances 3 1 s) ∧
    while_loop elements (λ q, Return (elements (Neighborhood distances 3 q 1)))
      4 (∅, Neighborhood distances 3 0 1)
    = Return {[0; 1; 2]}.
Proof.
  set (d := λ i j : nat,
         inject_Z (Z.abs (nth i three_in_a_row 0 - nth j three_in_a_row 0)%Z)).
  assert (1 ∈ Neighborhood d 3 0 1) as H01
    by (apply elem_of_Neighborhood; split; [lia | by vm_compute]).
  assert (2 ∈ Neighborhood d 3 1 1) as H12
    by (apply elem_of_Neighborhood; split; [lia | by vm_compute]).
  exists d, {[0; 1]}. split_and!.
  - reflexivity.
  - by vm_compute.
  - reflexivity.
  - eapply dr_union; [eapply dr_union; [apply dr_seed | exact H01] | exact H12].
  - rewrite elem_of_union, !elem_of_singleton. lia.
  - intros Hclosed.
    assert (2 ∈ ({[0; 1]} : gset nat)) as Hin.
    { apply (Hclosed 1); [|exact H12].
      apply elem_of_union_r. by apply elem_of_singleton. }
    revert Hin. rewrite elem_of_union, !elem_of_singleton. lia.
  - by vm_compute.
Qed.

(** C2.  [cdbscan] returns [None] whatever its arguments are: it produces
    no label sequence, does not raise, and its outcome is the same for any
    two argument lists. *)
Theorem cdbscan_returns_None :
  ∀ (Point : Type) (dataset : list Point) (epsilon : Q) (minpts : Z)
    (mustlink cannotlink : option (gset (Z * Z))),
    cdbscan dataset epsilon minpts mustlink cannotlink = Return PyNone ∧
    (∀ labels,
       cdbscan dataset epsilon minpts mustlink cannotlink
       ≠ Return (PyLabels labels)) ∧
    (∀ (dataset' : list Point) epsilon' minpts' mustlink' cannotlink',
       cdbscan dataset epsilon minpts mustlink cannotlink
       = cdbscan dataset' epsilon' minpts' mustlink' cannotlink').
Proof. intros. split_and!; [reflexivity | discriminate | reflexivity]. Qed.

(** C3.  On the six points of [test_easy_clusters_no_constraints] with
    epsilon = 5 and minpts = 2 the claim asks for a sequence of six labels.
    The code returns [None], which is no sequence of labels. *)
Theorem cdbscan_no_labels_on_easy_points :
  cdbscan easy_points 5 2 None None = Return PyNone ∧
  ∀ labels, length labels = length easy_points →
    cdbscan easy_points 5 2 None None ≠ Return (PyLabels labels).
Proof. split; [reflexivity | discriminate]. Qed.

(** C4.  For a valid point index [p] and a radius [epsilon > 0], over a
    distance matrix whose diagonal is zero, the set returned contains [p]. *)
Theorem density_reachable_contains_point :
  ∀ (Point : Type) (pairwise_distances : list Point → outcome matrix)
    (set_iter : gset nat → list nat) (fuel : nat) (dataset : list Point)
    (p : Z) (epsilon : Q) (distances : matrix),
    pairwise_distances dataset = Return distances →
    (∀ i, i < length dataset → distances i i == 0) →
    (0 ≤ p < Z.of_nat (length dataset))%Z →
    (0 < epsilon)%Q →
    0 < fuel →
    ∃ s, compute_density_reachable_points pairwise_distances set_iter fuel
           dataset p epsilon = Return s ∧
         Z.to_nat p ∈ s.
Proof.
  intros Point pd set_iter fuel dataset p epsilon distances Hd Hdiag Hp Heps Hfuel.
  destruct fuel as [|fuel]; [lia|].
  eexists. split; [by apply compute_density_reachable_points_valid|].
  apply elem_of_Neighborhood. split; [lia|].
  rewrite Hdiag by lia. by apply Qlt_le_weak.
Qed.

Lemma pairwise_distances_line_diagonal (dataset : list Z) (i : nat) :
  inject_Z (Z.abs (nth i dataset 0 - nth i dataset 0)%Z) == 0.
Proof. by rewrite Z.sub_diag. Qed.

Lemma density_reachable_contains_point_witness :
  ∃ s, compute_density_reachable_points pairwise_distances_line elements 1
         three_in_a_row 1 1 = Return s ∧
       1 ∈ s.
Proof.
  apply (density_reachable_contains_point Z pairwise_distances_line elements 1
           three_in_a_row 1 1 _ eq_refl).
  - intros i _. apply pairwise_distances_line_diagonal.
  - simpl. lia.
  - reflexivity.
  - lia.
Defined.

(** C5.  Two invocations with the same dataset, point index and radius
    return the same outcome, whatever the order in which each of them
    iterates over its set and however long each is allowed to run.  The
    function has no argument and no result besides those three and the
    set: there is no state for it to read or to leave behind. *)
Theorem density_reachable_deterministic :
  ∀ (Point : Type) (pairwise_distances : list Point → outcome matrix)
    (set_iter1 set_iter2 : gset nat → list nat) (fuel1 fuel2 : nat)
    (dataset : list Point) (point_index : Z) (maximum_distance : Q),
    0 < fuel1 → 0 < fuel2 →
    compute_density_reachable_points pairwise_distances set_iter1 fuel1
      dataset point_index maximum_distance
    = compute_density_reachable_points pairwise_distances set_iter2 fuel2
        dataset point_index maximum_distance.
Proof.
  intros Point pd it1 it2 [|fuel1] [|fuel2] dataset p r H1 H2; try lia.
  by rewrite !compute_density_reachable_points_unfold.
Qed.

Lemma density_reachable_deterministic_witness :
  compute_density_reachable_points pairwise_distances_line elements 1
    three_in_a_row 0 1
  = compute_density_reachable_points pairwise_distances_line
      (λ s, reverse (elements s)) 7 three_in_a_row 0 1.
Proof.
  apply (density_reachable_deterministic Z pairwise_distances_line elements
           (λ s, reverse (elements s)) 1 7 three_in_a_row 0 1); lia.
Defined.

(** C6.  For a valid point index [p] and a radius [r >= 0] the function
    returns the direct neighbourhood {i : distance(p, i) <= r}.
    [compute_neighbors] gives the same answer for every [element_index],
    and the first iteration of the loop leaves the set as it was and
    clears the flag. *)
Theorem density_reachable_is_direct_neighborhood :
  ∀ (Point : Type) (pairwise_distances : list Point → outcome matrix)
    (set_iter : gset nat → list nat) (fuel : nat) (dataset : list Point)
    (p : Z) (r : Q) (distances : matrix),
    pairwise_distances dataset = Return distances →
    (0 ≤ p < Z.of_nat (length dataset))%Z →
    (0 <= r)%Q →
    0 < fuel →
    let element_count := length dataset in
    ∃ s, compute_density_reachable_points pairwise_distances set_iter fuel
           dataset p r = Return s ∧
         s = Neighborhood distances element_count (Z.to_nat p) r ∧
         (∀ i, i ∈ s ↔ i < element_count ∧ (distances (Z.to_nat p) i <= r)%Q) ∧
         (∀ element_index element_index',
            compute_neighbors element_count distances p r element_index
            = compute_neighbors element_count distances p r element_index') ∧
         loop_body set_iter
           (λ i, compute_neighbors element_count distances p r (Z.of_nat i))
           (∅, s)
         = Return (∅ ∪ s, s, false).
Proof.
  intros Point pd set_iter fuel dataset p r distances Hd Hp Hr Hfuel n.
  destruct fuel as [|fuel]; [lia|].
  eexists. split; [by apply compute_density_reachable_points_valid|].
  split_and!; [done | apply elem_of_Neighborhood | done |].
  apply loop_body_constant
    with (nb := List.filter (λ i, Qle_bool (distances (Z.to_nat p) i) r) (seq 0 n));
    [|done].
  intros q. apply compute_neighbors_row. by apply normalize_index_valid.
Qed.

Lemma density_reachable_is_direct_neighborhood_witness :
  ∃ s, compute_density_reachable_points pairwise_distances_line elements 1
         three_in_a_row 0 1 = Return s ∧
       s = Neighborhood
             (λ i j, inject_Z (Z.abs (nth i three_in_a_row 0 - nth j three_in_a_row 0)%Z))
             3 0 1.
Proof.
  destruct (density_reachable_is_direct_neighborhood Z pairwise_distances_line
              elements 1 three_in_a_row 0 1 _ eq_refl)
    as (s & Hs & Heq & _).
  - simpl. lia.
  - discriminate.
  - lia.
  - exists s. split; [exact Hs | exact Heq].
Defined.

(** C7.  The loop terminates.  From a state whose [density_reachable] holds
    indices of the dataset only, an iteration yields such a state again, of
    at most [element_count] members; when it sets the flag the set has
    strictly more members than before, and when it clears the flag the loop
    returns.  Hence the loop does not run out of fuel when given more than
    [element_count - |density_reachable|] iterations, and the function
    does not when given more than [element_count]. *)
Theorem fixpoint_loop_terminates :
  ∀ (Point : Type) (pairwise_distances : list Point → outcome matrix)
    (set_iter : gset nat → list nat) (dataset : list Point)
    (point_index : Z) (maximum_distance : Q) (distances : matrix)
    (points_already_visited density_reachable : gset nat),
    let element_count := length dataset in
    let neighbors := λ i : nat,
      compute_neighbors element_count distances point_index maximum_distance
        (Z.of_nat i) in
    (∀ i, i ∈ density_reachable → i < element_count) →
    (∀ visited' density_reachable' new_points_to_explore,
       loop_body set_iter neighbors (points_already_visited, density_reachable)
       = Return (visited', density_reachable', new_points_to_explore) →
       (∀ i, i ∈ density_reachable' → i < element_count) ∧
       size density_reachable' ≤ element_count ∧
       if new_points_to_explore
       then size density_reachable < size density_reachable'
       else ∀ fuel, while_loop set_iter neighbors (S fuel)
                      (points_already_visited, density_reachable)
                    = Return density_reachable') ∧
    (∀ fuel, element_count - size density_reachable < fuel →
       while_loop set_iter neighbors fuel
         (points_already_visited, density_reachable) ≠ Timeout) ∧
    (pairwise_distances dataset = Return distances →
     ∀ fuel, element_count < fuel →
       compute_density_reachable_points pairwise_distances set_iter fuel
         dataset point_index maximum_distance ≠ Timeout).
Proof.
  intros Point pd set_iter dataset p r distances visited dr n neighbors Hdr.
  assert (∀ q nb, neighbors q = Return nb → ∀ i, i ∈ nb → i < n) as Hrange
    by (intros q nb Hq; unfold neighbors in Hq;
        eapply compute_neighbors_in_range; exact Hq).
  assert (∀ q, neighbors q ≠ Timeout) as Hnt
    by (intros q; unfold neighbors; apply compute_neighbors_no_timeout).
  split_and!.
  - intros visited' dr' again Hbody.
    pose proof (loop_body_in_range _ _ _ Hrange _ _ _ _ _ Hdr Hbody) as Hdr'.
    split_and!; [done | by apply size_in_range |].
    destruct again.
    + apply loop_body_inv in Hbody as (_ & _ & Hagain & _).
      symmetry in Hagain. by apply bool_decide_eq_true_1 in Hagain.
    + intros fuel. by eapply while_loop_ends.
  - intros fuel Hfuel. by apply while_loop_no_timeout with (element_count := n).
  - intros Hd fuel Hfuel. unfold compute_density_reachable_points.
    rewrite Hd, bind_Return. fold n.
    destruct (compute_neighbors n distances p r p) as [initial| |] eqn:Hinit.
    + rewrite bind_Return.
      apply while_loop_no_timeout with (element_count := n); [done..| |].
      * intros i Hi. apply elem_of_list_to_set in Hi.
        by eapply compute_neighbors_in_range.
      * lia.
    + discriminate.
    + by apply compute_neighbors_no_timeout in Hinit.
Qed.

Lemma fixpoint_loop_terminates_witness :
  compute_density_reachable_points pairwise_distances_line elements 4
    three_in_a_row 0 1 ≠ Timeout ∧
  while_loop elements (λ i, compute_neighbors 3
      (λ i j, inject_Z (Z.abs (nth i three_in_a_row 0 - nth j three_in_a_row 0)%Z))
      0 1 (Z.of_nat i)) 3 (∅, {[0]}) ≠ Timeout.
Proof.
  destruct (fixpoint_loop_terminates Z pairwise_distances_line elements
              three_in_a_row 0 1
              (λ i j, inject_Z (Z.abs (nth i three_in_a_row 0 - nth j three_in_a_row 0)%Z))
              ∅ {[0]})
    as (_ & Hloop & Hfun).
  - intros i Hi. apply elem_of_singleton in Hi. simpl. lia.
  - split.
    + apply (Hfun eq_refl). simpl. lia.
    + apply Hloop. rewrite size_singleton. simpl. lia.
Defined.

(** C8.  On the input of [test_mustlink_merging], with the must-link pair
    (0, 1), the claim asks for label(0) = label(1) >= 0.  The code returns
    [None]: reading the label of 0 or of 1 from it raises, so the two
    points have no common non-negative label. *)
Theorem cdbscan_mustlink_has_no_labels :
  (0, 1)%Z ∈ merging_mustlink ∧
  ∃ v, cdbscan merging_points 5 2 (Some merging_mustlink) None = Return v ∧
       v = PyNone ∧
       label v 0 = Raise "TypeError" ∧
       label v 1 = Raise "TypeError" ∧
       ¬ (∃ l, label v 0 = Return l ∧ label v 1 = Return l ∧ (0 ≤ l)%Z).
Proof.
  split; [by apply elem_of_singleton|].
  exists PyNone. split_and!; try reflexivity.
  intros (l & H & _). discriminate.
Qed.

(** C9, as the claim states it, fails: with epsilon = 0 and minpts = 0, both
    invalid, the call raises nothing and returns. *)
Lemma cdbscan_accepts_invalid_parameters :
  (0 <= 0)%Q ∧ (0 < 1)%Z ∧
  cdbscan easy_points 0 0 None None = Return PyNone ∧
  cdbscan easy_points 0 0 None None ≠ Raise "InvalidParameter".
Proof. split_and!; [discriminate | lia | reflexivity | discriminate]. Qed.

(** C9, amended.  A call with [epsilon <= 0] or [minpts < 1] raises no
    error and completes; its outcome does not depend on the dataset, so no
    neighbourhood is computed; and it returns no label assignment. *)
Theorem cdbscan_validates_no_parameter :
  ∀ (Point : Type) (dataset : list Point) (epsilon : Q) (minpts : Z)
    (mustlink cannotlink : option (gset (Z * Z))),
    (epsilon <= 0)%Q ∨ (minpts < 1)%Z →
    (∀ exc, cdbscan dataset epsilon minpts mustlink cannotlink ≠ Raise exc) ∧
    cdbscan dataset epsilon minpts mustlink cannotlink ≠ Timeout ∧
    (∀ dataset' : list Point,
       cdbscan dataset' epsilon minpts mustlink cannotlink
       = cdbscan dataset epsilon minpts mustlink cannotlink) ∧
    (∀ labels,
       cdbscan dataset epsilon minpts mustlink cannotlink
       ≠ Return (PyLabels labels)).
Proof. intros. split_and!; [discriminate.. | reflexivity | discriminate]. Qed.

Lemma cdbscan_validates_no_parameter_witness :
  (∃ v, cdbscan easy_points 0 0 None None = Return v) ∧
  (∃ v, cdbscan easy_points 5 0 None None = Return v).
Proof.
  destruct (cdbscan_validates_no_parameter (list Z) easy_points 0 0 None None)
    as (Hexc & Hto & _).
  { left. discriminate. }
  destruct (cdbscan_validates_no_parameter (list Z) easy_points 5 0 None None)
    as (Hexc' & Hto' & _).
  { right. lia. }
  split.
  - destruct (cdbscan easy_points 0 0 None None) as [v|exc|];
      [by exists v | by destruct (Hexc exc) | done].
  - destruct (cdbscan easy_points 5 0 None None) as [v|exc|];
      [by exists v | by destruct (Hexc' exc) | done].
Defined.

(** C10.  On an empty dataset with the default (valid) parameters the claim
    asks for an empty label sequence.  The code raises nothing, and returns
    [None], which is not the empty sequence. *)
Theorem cdbscan_empty_dataset_returns_None :
  (0 < default_epsilon)%Q ∧ (1 ≤ default_minpts)%Z ∧
  cdbscan (@nil (list Z)) default_epsilon default_minpts None None
  = Return PyNone ∧
  cdbscan (@nil (list Z)) default_epsilon default_minpts None None
  ≠ Return (PyLabels []).
Proof. split_and!; [reflexivity | by vm_compute | reflexivity | discriminate]. Qed.

(** * Further properties of the code *)

(** ** Indexing and [compute_neighbors] at the edges *)

Lemma normalize_index_wrap (n : nat) (i : Z) :
  (- Z.of_nat n ≤ i < 0)%Z →
  normalize_index n i = Some (Z.to_nat (i + Z.of_nat n)).
Proof.
  intros H. unfold normalize_index.
  rewrite bool_decide_eq_false_2 by lia. by rewrite bool_decide_eq_true_2.
Qed.

Lemma normalize_index_out_of_range (n : nat) (i : Z) :
  (i < - Z.of_nat n ∨ Z.of_nat n ≤ i)%Z → normalize_index n i = None.
Proof.
  intros H. unfold normalize_index.
  by rewrite !bool_decide_eq_false_2 by lia.
Qed.

Lemma normalize_index_lt (n : nat) (i : Z) (row : nat) :
  normalize_index n i = Some row → row < n.
Proof.
  unfold normalize_index. repeat case_bool_decide; intros [= <-]; lia.
Qed.

Lemma compute_neighbors_out_of_range n distances p r e :
  0 < n → normalize_index n p = None →
  compute_neighbors n distances p r e = Raise "IndexError".
Proof.
  intros Hn Hp. destruct n as [|n]; [lia|].
  unfold compute_neighbors. cbn [seq generator_filter].
  unfold getitem. rewrite Hp. reflexivity.
Qed.

Lemma Neighborhood_mono distances n q (r r' : Q) :
  (r <= r')%Q → Neighborhood distances n q r ⊆ Neighborhood distances n q r'.
Proof.
  intros Hr i. rewrite !elem_of_Neighborhood. intros [? ?].
  split; [done|]. by eapply Qle_trans.
Qed.

Section DensityReachableEdges.
Context {Point : Type}.
Variable pairwise_distances : list Point → outcome matrix.
Variable set_iter : gset nat → list nat.

Lemma compute_density_reachable_points_row fuel dataset p r distances row :
  pairwise_distances dataset = Return distances →
  normalize_index (length dataset) p = Some row →
  compute_density_reachable_points pairwise_distances set_iter (S fuel)
    dataset p r
  = Return (Neighborhood distances (length dataset) row r).
Proof.
  intros Hd Hp. rewrite compute_density_reachable_points_unfold, Hd.
  rewrite bind_Return, (compute_neighbors_row _ _ _ _ _ row) by done.
  reflexivity.
Qed.

(** Every way in which the function returns a set. *)
Lemma compute_density_reachable_points_Return_inv fuel dataset p r s :
  compute_density_reachable_points pairwise_distances set_iter fuel
    dataset p r = Return s →
  0 < fuel ∧
  ∃ distances, pairwise_distances dataset = Return distances ∧
    ((dataset = [] ∧ s = ∅) ∨
     ∃ row, normalize_index (length dataset) p = Some row ∧
            s = Neighborhood distances (length dataset) row r).
Proof.
  intros H. destruct fuel as [|fuel].
  { unfold compute_density_reachable_points in H.
    destruct (pairwise_distances dataset); [|done..].
    rewrite bind_Return in H.
    by destruct (compute_neighbors _ _ _ _ _). }
  split; [lia|].
  rewrite compute_density_reachable_points_unfold in H.
  destruct (pairwise_distances dataset) as [distances| |]; [|done..].
  exists distances. split; [done|]. rewrite bind_Return in H.
  destruct dataset as [|x dataset].
  { left. split; [done|]. by injection H as <-. }
  right.
  destruct (normalize_index (length (x :: dataset)) p) as [row|] eqn:Hp.
  - exists row. split; [done|].
    rewrite (compute_neighbors_row _ _ _ _ _ row) in H by done.
    by injection H as <-.
  - rewrite compute_neighbors_out_of_range in H by (simpl; lia || done).
    discriminate.
Qed.
End DensityReachableEdges.

(** ** [compute_density_reachable_points]: errors and edge cases *)

(** X1.  On a dataset that is not empty, a point index outside
    [-N, N) raises [IndexError].  The error comes from the first read of
    the distance matrix on line 24, before the loop is entered: it does
    not depend on how long the loop may run. *)
Theorem density_reachable_index_error :
  ∀ (Point : Type) (pairwise_distances : list Point → outcome matrix)
    (set_iter : gset nat → list nat) (fuel : nat) (dataset : list Point)
    (point_index : Z) (maximum_distance : Q) (distances : matrix),
    pairwise_distances dataset = Return distances →
    dataset ≠ [] →
    (point_index < - Z.of_nat (length dataset)
     ∨ Z.of_nat (length dataset) ≤ point_index)%Z →
    compute_density_reachable_points pairwise_distances set_iter fuel
      dataset point_index maximum_distance
    = Raise "IndexError".
Proof.
  intros Point pd set_iter fuel dataset p r distances Hd Hne Hp.
  unfold compute_density_reachable_points. rewrite Hd, bind_Return.
  rewrite compute_neighbors_out_of_range;
    [done | destruct dataset; [done | simpl; lia]
    | by apply normalize_index_out_of_range].
Qed.

Lemma density_reachable_index_error_witness :
  compute_density_reachable_points pairwise_distances_line elements 0
    three_in_a_row 3 1
  = Raise "IndexError".
Proof.
  apply (density_reachable_index_error Z pairwise_distances_line elements 0
           three_in_a_row 3 1 _ eq_refl).
  - discriminate.
  - right. simpl. lia.
Defined.

(** X2.  A negative point index in [-N, 0) counts from the end of the
    dataset: the outcome is that of the index [point_index + N]. *)
Theorem density_reachable_negative_index :
  ∀ (Point : Type) (pairwise_distances : list Point → outcome matrix)
    (set_iter : gset nat → list nat) (fuel : nat) (dataset : list Point)
    (point_index : Z) (maximum_distance : Q),
    (- Z.of_nat (length dataset) ≤ point_index < 0)%Z →
    compute_density_reachable_points pairwise_distances set_iter fuel
      dataset point_index maximum_distance
    = compute_density_reachable_points pairwise_distances set_iter fuel
        dataset (point_index + Z.of_nat (length dataset)) maximum_distance.
Proof.
  intros Point pd set_iter fuel dataset p r Hp.
  pose proof (normalize_index_wrap _ _ Hp) as Hrow.
  assert (normalize_index (length dataset) (p + Z.of_nat (length dataset))
          = Some (Z.to_nat (p + Z.of_nat (length dataset)))) as Hrow'
    by (apply normalize_index_valid; lia).
  destruct fuel as [|fuel].
  - unfold compute_density_reachable_points.
    destruct (pd dataset) as [distances| |]; [|done..].
    rewrite !bind_Return.
    rewrite (compute_neighbors_row _ _ _ _ _ _ Hrow).
    rewrite (compute_neighbors_row _ _ _ _ _ _ Hrow'). reflexivity.
  - rewrite !compute_density_reachable_points_unfold.
    destruct (pd dataset) as [distances| |]; [|done..].
    rewrite !bind_Return.
    rewrite (compute_neighbors_row _ _ _ _ _ _ Hrow).
    rewrite (compute_neighbors_row _ _ _ _ _ _ Hrow'). reflexivity.
Qed.

Lemma density_reachable_negative_index_witness :
  compute_density_reachable_points pairwise_distances_line elements 1
    three_in_a_row (-1) 1
  = compute_density_reachable_points pairwise_distances_line elements 1
      three_in_a_row (-1 + 3) 1.
Proof.
  apply (density_reachable_negative_index Z pairwise_distances_line elements
           1 three_in_a_row (-1) 1).
  simpl. lia.
Defined.



(** X4.  A set that the function returns holds indices of the dataset
    only, so it has at most N members. *)
Theorem density_reachable_within_dataset :
  ∀ (Point : Type) (pairwise_distances : list Point → outcome matrix)
    (set_iter : gset nat → list nat) (fuel : nat) (dataset : list Point)
    (point_index : Z) (maximum_distance : Q) (s : gset nat),
    compute_density_reachable_points pairwise_distances set_iter fuel
      dataset point_index maximum_distance = Return s →
    (∀ i, i ∈ s → i < length dataset) ∧ size s ≤ length dataset.
Proof.
  intros Point pd set_iter fuel dataset p r s H.
  assert (∀ i, i ∈ s → i < length dataset) as Hin.
  { apply compute_density_reachable_points_Return_inv in H
      as (_ & distances & _ & [[_ ->] | (row & _ & ->)]).
    - intros i Hi. by apply elem_of_empty in Hi.
    - intros i Hi. by apply elem_of_Neighborhood in Hi as [? _]. }
  split; [done | by apply size_in_range].
Qed.

Lemma density_reachable_within_dataset_witness :
  (∀ i, i ∈ ({[0; 1]} : gset nat) → i < 3) ∧ size ({[0; 1]} : gset nat) ≤ 3.
Proof.
  apply (density_reachable_within_dataset Z pairwise_distances_line elements
           1 three_in_a_row 0 1 {[0; 1]}).
  by vm_compute.
Defined.

(** X5.  The set grows with the radius: when the function returns [s] for
    the radius [r] it returns, for any radius [r' >= r], a set that
    includes [s]. *)
Theorem density_reachable_monotone_in_radius :
  ∀ (Point : Type) (pairwise_distances : list Point → outcome matrix)
    (set_iter set_iter' : gset nat → list nat) (fuel fuel' : nat)
    (dataset : list Point) (point_index : Z) (r r' : Q) (s : gset nat),
    (r <= r')%Q →
    0 < fuel' →
    compute_density_reachable_points pairwise_distances set_iter fuel
      dataset point_index r = Return s →
    ∃ s', compute_density_reachable_points pairwise_distances set_iter' fuel'
            dataset point_index r' = Return s' ∧
          s ⊆ s'.
Proof.
  intros Point pd set_iter set_iter' fuel [|fuel'] dataset p r r' s Hr Hfuel' H;
    [lia|].
  apply compute_density_reachable_points_Return_inv in H
    as (_ & distances & Hd & [[-> ->] | (row & Hrow & ->)]).
  - exists ∅. split; [|done].
    by rewrite compute_density_reachable_points_unfold, Hd.
  - eexists. split.
    + by apply compute_density_reachable_points_row.
    + by apply Neighborhood_mono.
Qed.

Lemma density_reachable_monotone_in_radius_witness :
  ∃ s', compute_density_reachable_points pairwise_distances_line elements 1
          three_in_a_row 0 2 = Return s' ∧
        ({[0; 1]} : gset nat) ⊆ s'.
Proof.
  apply (density_reachable_monotone_in_radius Z pairwise_distances_line
           elements elements 1 1 three_in_a_row 0 1 2 {[0; 1]}).
  - discriminate.
  - lia.
  - by vm_compute.
Defined.

(** X6.  With a radius below zero, over a matrix of distances that are
    not negative, the function returns the empty set: the point itself is
    not in it. *)
Theorem density_reachable_negative_radius :
  ∀ (Point : Type) (pairwise_distances : list Point → outcome matrix)
    (set_iter : gset nat → list nat) (fuel : nat) (dataset : list Point)
    (point_index : Z) (maximum_distance : Q) (distances : matrix),
    pairwise_distances dataset = Return distances →
    (∀ i j, (0 <= distances i j)%Q) →
    (0 ≤ point_index < Z.of_nat (length dataset))%Z →
    (maximum_distance < 0)%Q →
    0 < fuel →
    compute_density_reachable_points pairwise_distances set_iter fuel
      dataset point_index maximum_distance
    = Return ∅.
Proof.
  intros Point pd set_iter [|fuel] dataset p r distances Hd Hpos Hp Hr Hfuel;
    [lia|].
  rewrite (compute_density_reachable_points_valid _ _ _ _ _ _ _ Hd Hp).
  f_equal. apply set_eq. intros i. rewrite elem_of_Neighborhood.
  split; [|by intros ?%elem_of_empty].
  intros [_ Hle]. exfalso.
  apply (Qlt_irrefl 0). eapply Qle_lt_trans; [|exact Hr].
  eapply Qle_trans; [apply Hpos | exact Hle].
Qed.

Lemma pairwise_distances_line_nonnegative (dataset : list Z) (i j : nat) :
  (0 <= inject_Z (Z.abs (nth i dataset 0 - nth j dataset 0)%Z))%Q.
Proof.
  change 0%Q with (inject_Z 0). rewrite <- Zle_Qle. apply Z.abs_nonneg.
Qed.

Lemma density_reachable_negative_radius_witness :
  compute_density_reachable_points pairwise_distances_line elements 1
    three_in_a_row 1 (-1)
  = Return ∅.
Proof.
  apply (density_reachable_negative_radius Z pairwise_distances_line elements
           1 three_in_a_row 1 (-1) _ eq_refl).
  - intros i j. apply pairwise_distances_line_nonnegative.
  - simpl. lia.
  - reflexivity.
  - lia.
Defined.

(** X7.  Over a symmetric distance matrix the result is symmetric: for
    valid indices [p] and [q], [q] is in the set returned for [p] exactly
    when [p] is in the set returned for [q]. *)
Theorem density_reachable_symmetric :
  ∀ (Point : Type) (pairwise_distances : list Point → outcome matrix)
    (set_iter : gset nat → list nat) (fuel : nat) (dataset : list Point)
    (p q : nat) (maximum_distance : Q) (distances : matrix),
    pairwise_distances dataset = Return distances →
    (∀ i j, distances i j == distances j i) →
    p < length dataset →
    q < length dataset →
    0 < fuel →
    ∃ sp sq,
      compute_density_reachable_points pairwise_distances set_iter fuel
        dataset (Z.of_nat p) maximum_distance = Return sp ∧
      compute_density_reachable_points pairwise_distances set_iter fuel
        dataset (Z.of_nat q) maximum_distance = Return sq ∧
      (q ∈ sp ↔ p ∈ sq).
Proof.
  intros Point pd set_iter [|fuel] dataset p q r distances Hd Hsym Hp Hq Hfuel;
    [lia|].
  eexists _, _. split_and!.
  - apply compute_density_reachable_points_row; [done|].
    by apply normalize_index_of_nat.
  - apply compute_density_reachable_points_row; [done|].
    by apply normalize_index_of_nat.
  - rewrite !elem_of_Neighborhood, (Hsym p q). intuition.
Qed.

Lemma pairwise_distances_line_symmetric (dataset : list Z) (i j : nat) :
  inject_Z (Z.abs (nth i dataset 0 - nth j dataset 0)%Z)
  == inject_Z (Z.abs (nth j dataset 0 - nth i dataset 0)%Z).
Proof.
  rewrite inject_Z_injective.
  rewrite <- Z.abs_opp. f_equal. lia.
Qed.

Lemma density_reachable_symmetric_witness :
  ∃ sp sq,
    compute_density_reachable_points pairwise_distances_line elements 1
      three_in_a_row 0 1 = Return sp ∧
    compute_density_reachable_points pairwise_distances_line elements 1
      three_in_a_row 2 1 = Return sq ∧
    (2 ∈ sp ↔ 0 ∈ sq).
Proof.
  apply (density_reachable_symmetric Z pairwise_distances_line elements 1
           three_in_a_row 0 2 1 _ eq_refl).
  - intros i j. apply pairwise_distances_line_symmetric.
  - simpl. lia.
  - simpl. lia.
  - lia.
Defined.

(** ** The loop, given the neighbourhood of each point it explores *)

Section LoopClosure.
Variable set_iter : gset nat → list nat.
Hypothesis set_iter_spec : ∀ (s : gset nat) i, i ∈ set_iter s ↔ i ∈ s.
Variable neighbors_of : nat → list nat.

Abbreviation pure_neighbors := (λ q : nat, Return (neighbors_of q)).
Abbreviation explored visited dr :=
  (foldl (λ (acc : gset nat) (neighborhood : list nat),
            acc ∪ list_to_set neighborhood)
         dr
         (neighbors_of <$> filter (λ i, i ∉ visited) (set_iter dr))).





(** [reach] is the least set with the seed that the neighbourhoods of its
    members are part of. *)
Variable seed : nat.
Variable reach : nat → Prop.
Hypothesis reach_step : ∀ q i, reach q → i ∈ neighbors_of q → reach i.
Hypothesis reach_least :
  ∀ s : gset nat, seed ∈ s → (∀ q i, q ∈ s → i ∈ neighbors_of q → i ∈ s) →
                  ∀ i, reach i → i ∈ s.

Variable element_count : nat.
Hypothesis neighbors_of_in_range :
  ∀ q i, i ∈ neighbors_of q → i < element_count.

End LoopClosure.



(** ** [run_test] *)

(** X9.  [run_test] prints the set {0, 1, 2}, the three points around the
    origin, whenever the distance primitive returns for [X] a matrix whose
    first row lies within the radius [NEIGHBORHOOD_RADIUS = 2] exactly
    where the Euclidean distance does (squared distance at most 4). *)
Theorem run_test_prints_origin_cluster :
  ∀ (pairwise_distances : list (list Z) → outcome matrix)
    (set_iter : gset nat → list nat) (fuel : nat) (distances : matrix),
    pairwise_distances run_test_X = Return distances →
    (∀ j, j < length run_test_X →
       (distances 0%nat j <= NEIGHBORHOOD_RADIUS)%Q
       ↔ (squared_distance (nth 0%nat run_test_X []) (nth j run_test_X [])
          ≤ 2 * 2)%Z) →
    0 < fuel →
    run_test pairwise_distances set_iter fuel = Return [{[0; 1; 2]}].
Proof.
  intros pd set_iter [|fuel] distances Hd Heuclid Hfuel; [lia|].
  unfold run_test.
  rewrite (compute_density_reachable_points_valid _ _ _ _ _ _ _ Hd)
    by (simpl; lia).
  rewrite bind_Return. do 2 f_equal.
  apply set_eq. intros i. rewrite elem_of_Neighborhood.
  rewrite !elem_of_union, !elem_of_singleton. split.
  - intros [Hi Hle]. apply (Heuclid i Hi) in Hle.
    do 6 (destruct i as [|i]; [simpl in Hle; lia|]). simpl in Hi. lia.
  - intros [[->| ->]| ->]; (split; [simpl; lia|]);
      apply Heuclid; simpl; lia.
Qed.

Lemma run_test_prints_origin_cluster_witness :
  run_test pairwise_distances_grid elements 1 = Return [{[0; 1; 2]}].
Proof.
  apply (run_test_prints_origin_cluster pairwise_distances_grid elements 1 _
           eq_refl).
  - intros j Hj.
    do 6 (destruct j as [|j]; [unfold Qle; simpl; lia|]).
    simpl in Hj. lia.
  - lia.
Defined.

(** ** The unit tests *)

(** X10.  Each of the eight tests that assert a score hands [None], the
    value [cdbscan] returned, to [adjusted_rand_score]: with a scorer that
    raises on [None], whatever labels are expected, every one of them ends
    with that exception.  [test_merge_mustlink_when_cannotlink] asserts
    nothing and returns. *)
Theorem asserting_tests_raise_on_None :
  ∀ (adjusted_rand_score : list Z → pyvalue → outcome Q) (exc : string),
    (∀ expected, adjusted_rand_score expected PyNone = Raise exc) →
    Forall (λ test, test = Raise exc) (asserting_tests adjusted_rand_score) ∧
    test_merge_mustlink_when_cannotlink = Return ().
Proof.
  intros ars exc Hnone. split; [|reflexivity].
  unfold asserting_tests, test_easy_clusters_no_constraints,
    test_fully_constrained, test_fully_must_constrained,
    test_fully_cannot_constrained, test_mustlink_merging,
    test_singleton_outlier, test_outlier_cluster,
    test_connection_through_alpha, cdbscan, assert_score_is_one.
  cbv beta zeta. rewrite !bind_Return, !Hnone.
  repeat constructor.
Qed.

Lemma asserting_tests_raise_on_None_witness :
  Forall (λ test, test = Raise "ValueError") (asserting_tests strict_score) ∧
  test_merge_mustlink_when_cannotlink = Return ().
Proof.
  apply (asserting_tests_raise_on_None strict_score "ValueError").
  intros expected. reflexivity.
Defined.

(** ** The result against the closure *)

(** X11.  For a valid point index [p] whose own distance is within the
    radius, every point the function returns is density-reachable from
    [p] in the sense of the specification, and the set returned is the
    whole density-reachable set exactly when it is closed under
    neighbourhoods. *)
Theorem density_reachable_sound :
  ∀ (Point : Type) (pairwise_distances : list Point → outcome matrix)
    (set_iter : gset nat → list nat) (fuel : nat) (dataset : list Point)
    (p : nat) (r : Q) (distances : matrix),
    pairwise_distances dataset = Return distances →
    p < length dataset →
    (distances p p <= r)%Q →
    0 < fuel →
    let element_count := length dataset in
    ∃ s, compute_density_reachable_points pairwise_distances set_iter fuel
           dataset (Z.of_nat p) r = Return s ∧
         (∀ i, i ∈ s → DensityReachableSet_spec distances element_count p r i) ∧
         ((∀ i, DensityReachableSet_spec distances element_count p r i → i ∈ s)
          ↔ neighborhood_closed distances element_count r s).
Proof.
  intros Point pd set_iter [|fuel] dataset p r distances Hd Hp Hpp Hfuel n;
    [lia|].
  exists (Neighborhood distances n p r).
  assert (∀ i, i ∈ Neighborhood distances n p r →
               DensityReachableSet_spec distances n p r i) as Hsound
    by (intros i Hi; apply dr_union with p; [apply dr_seed | done]).
  split_and!.
  - apply compute_density_reachable_points_row; [done|].
    by apply normalize_index_of_nat.
  - done.
  - split.
    + intros Hall q Hq i Hi. apply Hall. apply dr_union with q; [|done].
      by apply Hsound.
    + intros Hclosed i Hi. induction Hi as [|q i _ IH Hi].
      * by apply elem_of_Neighborhood.
      * by apply (Hclosed q).
Qed.

Lemma density_reachable_sound_witness :
  ∃ s, compute_density_reachable_points pairwise_distances_line elements 1
         three_in_a_row 1 1 = Return s ∧
       ∀ i, i ∈ s →
            DensityReachableSet_spec
              (λ i j, inject_Z (Z.abs (nth i three_in_a_row 0 - nth j three_in_a_row 0)%Z))
              3 1 1 i.
Proof.
  destruct (density_reachable_sound Z pairwise_distances_line elements 1
              three_in_a_row 1 1 _ eq_refl)
    as (s & Hs & Hsound & _).
  - simpl. lia.
  - discriminate.
  - lia.
  - exists s. split; [exact Hs | exact Hsound].
Defined.
